(** * europe-map: the friends API of [server.js]

    A shallow embedding of the six JSON routes of [server.js] over a model
    of the single SQLite table [friends], and the properties of the
    specification proved (or refuted) on it.

    - [JS]      : JSON values as the handlers see them (truthiness, member
                  access, [x || null]).
    - [Sqlite]  : the table, its column affinities, AUTOINCREMENT, and the
                  five statements the server issues.
    - [Server]  : one function per route, written after the handler. *)

From Stdlib Require Import ZArith List String Ascii Bool Lia.
From Stdlib Require Import Sorting.Sorted Sorting.Permutation.
From Stdlib Require Import Classes.RelationClasses Structures.OrdersEx.
From Stdlib Require Import PrimFloat Uint63 DecimalString DecimalPos DecimalZ.
Import ListNotations.

Local Open Scope string_scope.
Local Open Scope list_scope.
Local Open Scope Z_scope.

(* ================================================================= *)
(** ** JavaScript values *)

Module JS.

(** A value produced by [express.json()] or built by a handler.  Numbers
    are IEEE binary64, as in JavaScript. *)
#[warnings="-register-all"]
Inductive JSValue : Type :=
| JUndefined
| JNull
| JBool (b : bool)
| JNum (f : float)
| JStr (s : string)
| JArr (items : list JSValue)
| JObj (fields : list (string * JSValue)).

(** ToBoolean: [undefined], [null], [false], [0], [-0], [NaN] and the empty
    string are falsy; everything else, every object and array included, is
    truthy. *)
Definition truthy (v : JSValue) : bool :=
  match v with
  | JUndefined | JNull => false
  | JBool b => b
  | JNum f => negb (PrimFloat.is_zero f || PrimFloat.is_nan f)
  | JStr s => negb (String.eqb s "")
  | JArr _ | JObj _ => true
  end.

Definition falsy (v : JSValue) : bool := negb (truthy v).

(** Own property of an object; the first binding of a key is the live one. *)
Fixpoint lookup (k : string) (fields : list (string * JSValue)) : JSValue :=
  match fields with
  | [] => JUndefined
  | (k', v) :: rest => if String.eqb k k' then v else lookup k rest
  end.

Definition keys (v : JSValue) : list string :=
  match v with
  | JObj fields => map fst fields
  | _ => []
  end.

(** [v.k] for the property names the server reads ([name], [location],
    [notes], [otherCities], [coords], [displayName], [lat], [lng]; none of
    them lives on a prototype).  [None] is the TypeError raised on [null]
    and [undefined]; primitives and arrays have no such property. *)
Definition member (v : JSValue) (k : string) : option JSValue :=
  match v with
  | JUndefined | JNull => None
  | JObj fields => Some (lookup k fields)
  | JBool _ | JNum _ | JStr _ | JArr _ => Some JUndefined
  end.

(** Total reading of a property, used to state properties of requests and
    responses: [undefined] wherever [v.k] has no value. *)
Definition field (v : JSValue) (k : string) : JSValue :=
  match member v k with
  | Some x => x
  | None => JUndefined
  end.

(** [null] and [undefined], on which member access throws. *)
Definition nullish (v : JSValue) : bool :=
  match v with
  | JUndefined | JNull => true
  | _ => false
  end.

(** [x || null] *)
Definition or_null (x : JSValue) : JSValue :=
  if truthy x then x else JNull.

(** The Number holding an integer that came out of SQLite (a rowid, a
    count); exact below 2^53. *)
Definition number_of_Z (z : Z) : float :=
  if z <? 0 then PrimFloat.opp (PrimFloat.of_uint63 (Uint63.of_Z (- z)))
  else PrimFloat.of_uint63 (Uint63.of_Z z).

(** [`${n}`] for an integer count. *)
Definition template_of_Z (z : Z) : string :=
  NilZero.string_of_int (Z.to_int z).

(** What a client reads from the body of [res.json(v)], that is,
    [JSON.parse(JSON.stringify(v))]: a property whose value is [undefined]
    is left out, an [undefined] array element, a NaN and an infinity become
    [null], and [-0] becomes [0]. *)
Fixpoint wire (v : JSValue) : JSValue :=
  match v with
  | JNum f =>
      if PrimFloat.is_finite f
      then (if PrimFloat.is_zero f then JNum PrimFloat.zero else JNum f)
      else JNull
  | JArr l =>
      JArr ((fix elems (l : list JSValue) : list JSValue :=
               match l with
               | [] => []
               | x :: rest =>
                   match x with
                   | JUndefined => JNull
                   | _ => wire x
                   end :: elems rest
               end) l)
  | JObj fields =>
      JObj ((fix props (fs : list (string * JSValue)) : list (string * JSValue) :=
               match fs with
               | [] => []
               | (k, x) :: rest =>
                   match x with
                   | JUndefined => props rest
                   | _ => (k, wire x) :: props rest
                   end
               end) fields)
  | other => other
  end.

(** The properties and the elements that [wire] keeps. *)
Definition wire_props (fs : list (string * JSValue)) : list (string * JSValue) :=
  match wire (JObj fs) with
  | JObj l => l
  | _ => []
  end.

Definition wire_elems (l : list JSValue) : list JSValue :=
  match wire (JArr l) with
  | JArr l' => l'
  | _ => []
  end.

End JS.
Import JS.

(** Exceptions thrown while a handler runs synchronously: a small option
    monad. *)
Definition bind_opt {A B : Type} (m : option A) (k : A -> option B) : option B :=
  match m with
  | Some a => k a
  | None => None
  end.

Notation "x <- m ;; k" := (bind_opt m (fun x => k))
  (at level 61, m at next level, right associativity).

(* ================================================================= *)
(** ** The [friends] table *)

Module Sqlite.

(** What a REAL column can hold once a JSON value has been bound to it. *)
Inductive sqlval : Type :=
| SqlNull
| SqlReal (f : float)
| SqlText (s : string).

Definition is_null (v : sqlval) : bool :=
  match v with
  | SqlNull => true
  | _ => false
  end.

(** One row of
    [[
    CREATE TABLE IF NOT EXISTS friends (
        id INTEGER PRIMARY KEY AUTOINCREMENT,
        name TEXT NOT NULL,
        location TEXT NOT NULL,
        notes TEXT,
        otherCities TEXT,
        latitude REAL NOT NULL,
        longitude REAL NOT NULL,
        displayName TEXT,
        timestamp DATETIME DEFAULT CURRENT_TIMESTAMP)
    ]]
    TEXT affinity turns every bound value into text, so the TEXT columns
    hold a string or NULL; [timestamp] is only ever filled by its default,
    the text ['YYYY-MM-DD HH:MM:SS']. *)
Record Row : Type := mkRow {
  id : Z;
  name : string;
  location : string;
  notes : option string;
  otherCities : option string;
  latitude : sqlval;
  longitude : sqlval;
  displayName : option string;
  timestamp : string
}.

(** The table in rowid (scan) order, and the AUTOINCREMENT high-water mark
    kept in [sqlite_sequence]. *)
Record Db : Type := mkDb {
  rows : list Row;
  seq : Z
}.

Definition empty : Db := mkDb [] 0.

(** The conversions of the driver and the engine on values whose type is
    not the column's.  They are not part of this repository; the model
    is parametric in them. *)
Class Coercions : Type := {
  (** text stored in a TEXT column for a bound number, boolean, array or
      object *)
  text_of_value : JSValue -> string;
  (** value stored in a REAL column for a bound string, boolean, array or
      object: a real when the bound value reads as a number, else text *)
  real_of_value : JSValue -> float + string;
  (** the integer a text is numerically equal to when it is compared with
      the INTEGER column [id], if there is one *)
  rowid_of_text : string -> option Z
}.

(** The driver hands a JavaScript string to SQLite as UTF-8.  A string is
    kept here as the bytes of its WTF-8 form (UTF-8 extended to unpaired
    surrogates, which take the three bytes ED, A0..BF, 80..BF); the
    conversion writes U+FFFD (EF BF BD) for every unpaired surrogate.  A
    text read back from the table is valid UTF-8 and is its own WTF-8
    form. *)
Definition unpaired_surrogate (a b c : ascii) : bool :=
  ((nat_of_ascii a =? 237) && (160 <=? nat_of_ascii b) && (nat_of_ascii b <=? 191)
   && (128 <=? nat_of_ascii c) && (nat_of_ascii c <=? 191))%nat.

Definition replacement_character : string :=
  String (ascii_of_nat 239) (String (ascii_of_nat 191)
    (String (ascii_of_nat 189) EmptyString)).

Fixpoint to_utf8 (s : string) : string :=
  match s with
  | EmptyString => EmptyString
  | String a t =>
      match t with
      | String b (String c rest) =>
          if unpaired_surrogate a b c
          then (replacement_character ++ to_utf8 rest)%string
          else String a (to_utf8 t)
      | _ => String a (to_utf8 t)
      end
  end.

Section Statements.
Context `{Coercions}.

(** Binding a parameter into a TEXT column. *)
Definition bind_text (v : JSValue) : option string :=
  match v with
  | JUndefined | JNull => None
  | JStr s => Some (to_utf8 s)
  | _ => Some (text_of_value v)
  end.

(** Binding a parameter into a REAL column: a NaN is stored as NULL and
    the sign of a zero is lost (it is bound as the integer 0). *)
Definition bind_real (v : JSValue) : sqlval :=
  match v with
  | JUndefined | JNull => SqlNull
  | JNum f =>
      if PrimFloat.is_nan f then SqlNull
      else if PrimFloat.is_zero f then SqlReal PrimFloat.zero
      else SqlReal f
  | _ =>
      match real_of_value v with
      | inl f => SqlReal f
      | inr s => SqlText s
      end
  end.

Fixpoint max_rowid (l : list Row) : Z :=
  match l with
  | [] => 0
  | r :: l' => Z.max (id r) (max_rowid l')
  end.

(** AUTOINCREMENT: one more than the largest rowid that ever existed. *)
Definition next_rowid (db : Db) : Z :=
  Z.max (seq db) (max_rowid (rows db)) + 1.

(** [INSERT INTO friends (name, location, notes, otherCities, latitude,
    longitude, displayName) VALUES (?, ?, ?, ?, ?, ?, ?)] at time [now].
    [None] is a NOT NULL constraint failure; otherwise the rowid
    ([this.lastID]) and the new table. *)
Definition insert (now : string)
    (p_name p_location p_notes p_otherCities p_lat p_lng p_displayName : JSValue)
    (db : Db) : option (Z * Db) :=
  match bind_text p_name, bind_text p_location with
  | Some n, Some l =>
      let lat := bind_real p_lat in
      let lng := bind_real p_lng in
      if is_null lat || is_null lng then None
      else
        let i := next_rowid db in
        let r := mkRow i n l (bind_text p_notes) (bind_text p_otherCities)
                       lat lng (bind_text p_displayName) now in
        Some (i, mkDb (rows db ++ [r]) i)
  | _, _ => None
  end.

(** [WHERE id = ?] with the text of the path segment. *)
Definition id_matches (friendId : string) (r : Row) : bool :=
  match rowid_of_text friendId with
  | Some i => id r =? i
  | None => false
  end.

(** [DELETE FROM friends WHERE id = ?]: the new table and [this.changes]. *)
Definition delete_where_id (friendId : string) (db : Db) : Db * Z :=
  let kept := filter (fun r => negb (id_matches friendId r)) (rows db) in
  (mkDb kept (seq db), Z.of_nat (List.length (rows db)) - Z.of_nat (List.length kept)).

(** [DELETE FROM friends]; [sqlite_sequence] is not reset. *)
Definition delete_all (db : Db) : Db * Z :=
  (mkDb [] (seq db), Z.of_nat (List.length (rows db))).

End Statements.

(** [a >= b] on timestamps: TEXT under the BINARY collation, that is, byte
    by byte. *)
Definition ts_geb (a b : string) : bool :=
  match String_as_OT.compare a b with
  | Lt => false
  | _ => true
  end.

(** [ORDER BY key DESC] as a sorter fed in scan order; rows with equal keys
    keep their scan order. *)
Fixpoint sorter_insert {A : Type} (key : A -> string) (x : A) (l : list A) : list A :=
  match l with
  | [] => [x]
  | y :: l' =>
      if ts_geb (key x) (key y) then x :: y :: l'
      else y :: sorter_insert key x l'
  end.

Definition order_by_desc {A : Type} (key : A -> string) (l : list A) : list A :=
  fold_right (sorter_insert key) [] l.

(** [SELECT * FROM friends ORDER BY timestamp DESC] *)
Definition select_all (db : Db) : list Row :=
  order_by_desc timestamp (rows db).

(** A result row of the public query: the seven selected columns. *)
Record PublicRow : Type := mkPublicRow {
  p_id : Z;
  p_name : string;
  p_location : string;
  p_latitude : sqlval;
  p_longitude : sqlval;
  p_displayName : option string;
  p_timestamp : string
}.

Definition public_columns (r : Row) : PublicRow :=
  mkPublicRow (id r) (name r) (location r) (latitude r) (longitude r)
              (displayName r) (timestamp r).

(** [SELECT id, name, location, latitude, longitude, displayName, timestamp
    FROM friends ORDER BY timestamp DESC] *)
Definition select_public (db : Db) : list PublicRow :=
  order_by_desc p_timestamp (map public_columns (rows db)).

(** The aggregate row of the stats query.  [COUNT(CASE WHEN c THEN 1 END)]
    steps its counter on the rows where [c] is true. *)
Record StatsRow : Type := mkStatsRow {
  totalFriends : Z;
  friendsWithNotes : Z;
  friendsWithRecommendations : Z
}.

(** [col IS NOT NULL AND col != ''] *)
Definition not_null_nor_empty (col : option string) : bool :=
  match col with
  | None => false
  | Some s => negb (String.eqb s "")
  end.

Definition count_step (acc : StatsRow) (r : Row) : StatsRow :=
  mkStatsRow
    (totalFriends acc + 1)
    (if not_null_nor_empty (notes r)
     then friendsWithNotes acc + 1 else friendsWithNotes acc)
    (if not_null_nor_empty (otherCities r)
     then friendsWithRecommendations acc + 1 else friendsWithRecommendations acc).

Definition select_stats (db : Db) : StatsRow :=
  fold_left count_step (rows db) (mkStatsRow 0 0 0).

End Sqlite.
Import Sqlite.

(* ================================================================= *)
(** ** The routes *)

Module Server.

(** A response: the status code and the value handed to [res.json]
    (serialising it drops the properties whose value is [undefined]). *)
Record Response : Type := mkResponse {
  status : Z;
  body : JSValue
}.

(** [res.json(v)] and [res.status(code).json(v)] *)
Definition json (v : JSValue) : Response := mkResponse 200 v.
Definition status_json (code : Z) (v : JSValue) : Response := mkResponse code v.

Definition error (code : Z) (msg : string) : Response :=
  status_json code (JObj [("error", JStr msg)]).

Definition message (msg : string) : Response :=
  json (JObj [("message", JStr msg)]).

(** The error-handling middleware, reached when a handler throws. *)
Definition something_went_wrong : Response :=
  error 500 "Something went wrong!".

(** A cell read back from the table, as the driver hands it to JavaScript. *)
Definition js_of_text (c : option string) : JSValue :=
  match c with
  | Some s => JStr s
  | None => JNull
  end.

Definition js_of_sqlval (c : sqlval) : JSValue :=
  match c with
  | SqlNull => JNull
  | SqlReal f => JNum f
  | SqlText s => JStr s
  end.

(** The [rows.map] callback of [GET /api/friends]. *)
Definition friend_of_row (row : Row) : JSValue :=
  JObj [ ("id", JNum (number_of_Z (id row)));
         ("name", JStr (name row));
         ("location", JStr (location row));
         ("notes", js_of_text (notes row));
         ("otherCities", js_of_text (otherCities row));
         ("coords", JObj [ ("lat", js_of_sqlval (latitude row));
                           ("lng", js_of_sqlval (longitude row)) ]);
         ("displayName", js_of_text (displayName row));
         ("timestamp", JStr (timestamp row)) ].

(** The [rows.map] callback of [GET /api/friends/public]. *)
Definition public_friend_of_row (row : PublicRow) : JSValue :=
  JObj [ ("id", JNum (number_of_Z (p_id row)));
         ("name", JStr (p_name row));
         ("location", JStr (p_location row));
         ("coords", JObj [ ("lat", js_of_sqlval (p_latitude row));
                           ("lng", js_of_sqlval (p_longitude row)) ]);
         ("displayName", js_of_text (p_displayName row));
         ("timestamp", JStr (p_timestamp row)) ].

(** [app.get("/api/friends", ...)].  Here and in every handler, [err] is
    the error the driver reports to the callback of the statement the
    handler issues, for a cause outside the table's contents (I/O, a locked
    or full database); a failed statement changes nothing. *)
Definition get_friends (err : bool) (db : Db) : Response :=
  if err then error 500 "Failed to fetch friends"
  else json (JArr (map friend_of_row (select_all db))).

(** [app.get("/api/friends/public", ...)] *)
Definition get_friends_public (err : bool) (db : Db) : Response :=
  if err then error 500 "Failed to fetch friends"
  else json (JArr (map public_friend_of_row (select_public db))).

(** [!name || !location || !coords || !coords.lat || !coords.lng], left to
    right with short circuit. *)
Definition required_missing (name location coords : JSValue) : option bool :=
  if negb (truthy name) then Some true
  else if negb (truthy location) then Some true
  else if negb (truthy coords) then Some true
  else
    lat <- member coords "lat" ;;
    if negb (truthy lat) then Some true
    else
      lng <- member coords "lng" ;;
      Some (negb (truthy lng)).

Section Routes.
Context `{Coercions}.

(** The [stmt.run] call of the create route and its callback. *)
Definition run_insert (err : bool) (now : string)
    (name location notes otherCities coords displayName : JSValue)
    (db : Db) : option (Response * Db) :=
  lat <- member coords "lat" ;;
  lng <- member coords "lng" ;;
  let outcome :=
    if err then None
    else insert now name location (or_null notes) (or_null otherCities)
                lat lng (or_null displayName) db in
  match outcome with
  | None => Some (error 500 "Failed to add friend", db)
  | Some (lastID, db') =>
      Some (json (JObj [ ("id", JNum (number_of_Z lastID));
                         ("name", name);
                         ("location", location);
                         ("notes", notes);
                         ("otherCities", otherCities);
                         ("coords", coords);
                         ("displayName", displayName);
                         ("message", JStr "Friend added successfully") ]),
            db')
  end.

(** [app.post("/api/friends", ...)]; [now] is CURRENT_TIMESTAMP at the
    insertion. *)
Definition post_friends_body (err : bool) (now : string) (req_body : JSValue)
    (db : Db) : option (Response * Db) :=
  name <- member req_body "name" ;;
  location <- member req_body "location" ;;
  notes <- member req_body "notes" ;;
  otherCities <- member req_body "otherCities" ;;
  coords <- member req_body "coords" ;;
  displayName <- member req_body "displayName" ;;
  invalid <- required_missing name location coords ;;
  if invalid
  then Some (error 400 "Name, location, and coordinates are required", db)
  else run_insert err now name location notes otherCities coords displayName db.

Definition post_friends (err : bool) (now : string) (req_body : JSValue)
    (db : Db) : Response * Db :=
  match post_friends_body err now req_body db with
  | Some out => out
  | None => (something_went_wrong, db)
  end.

(** [app.delete("/api/friends/:id", ...)] *)
Definition delete_friend (err : bool) (friendId : string) (db : Db)
    : Response * Db :=
  if err then (error 500 "Failed to delete friend", db)
  else
    let '(db', changes) := delete_where_id friendId db in
    if changes =? 0 then (error 404 "Friend not found", db')
    else (message "Friend deleted successfully", db').

(** [app.delete("/api/friends", ...)] *)
Definition delete_friends (err : bool) (db : Db) : Response * Db :=
  if err then (error 500 "Failed to clear friends", db)
  else
    let '(db', changes) := delete_all db in
    (message ("Deleted " ++ template_of_Z changes ++ " friends")%string, db').

(** [app.get("/api/stats", ...)]: [rows[0]] of the aggregate query. *)
Definition get_stats (err : bool) (db : Db) : Response :=
  if err then error 500 "Failed to get stats"
  else
    let row := select_stats db in
    json (JObj [ ("totalFriends", JNum (number_of_Z (totalFriends row)));
                 ("friendsWithNotes", JNum (number_of_Z (friendsWithNotes row)));
                 ("friendsWithRecommendations",
                  JNum (number_of_Z (friendsWithRecommendations row))) ]).

(** One request to the API, and the server as a transition system over the
    table. *)
Inductive Request : Type :=
| GetFriends
| GetFriendsPublic
| PostFriends (now : string) (req_body : JSValue)
| DeleteFriend (friendId : string)
| DeleteFriends
| GetStats.

Definition handle (err : bool) (rq : Request) (db : Db) : Response * Db :=
  match rq with
  | GetFriends => (get_friends err db, db)
  | GetFriendsPublic => (get_friends_public err db, db)
  | PostFriends now req_body => post_friends err now req_body db
  | DeleteFriend friendId => delete_friend err friendId db
  | DeleteFriends => delete_friends err db
  | GetStats => (get_stats err db, db)
  end.

(** The table after a sequence of requests, each with its own [err]. *)
Fixpoint serve (trace : list (bool * Request)) (db : Db) : Db :=
  match trace with
  | [] => db
  | (err, rq) :: rest => serve rest (snd (handle err rq db))
  end.

End Routes.

End Server.
Import Server.

(** A member of [Coercions] on which the model runs on concrete requests:
    decimal path segments denote rowids.  The examples below bind strings
    to TEXT columns and numbers to REAL columns only, so the other two
    conversions are never consulted there. *)
Definition decimal_rowid (s : string) : option Z :=
  match NilZero.int_of_string s with
  | Some d => Some (Z.of_int d)
  | None => None
  end.

Definition sample_coercions : Coercions :=
  {| text_of_value := fun _ => "[object Object]";
     real_of_value := fun _ => inr "[object Object]";
     rowid_of_text := decimal_rowid |}.

(* ================================================================= *)
(** ** What the specification says, in its own words *)

(** "any of name, location, coords, coords.lat, or coords.lng is falsy" *)
Definition any_required_falsy (req_body : JSValue) : Prop :=
  falsy (field req_body "name") = true \/
  falsy (field req_body "location") = true \/
  falsy (field req_body "coords") = true \/
  falsy (field (field req_body "coords") "lat") = true \/
  falsy (field (field req_body "coords") "lng") = true.

(** "all required fields truthy" *)
Definition all_required_truthy (req_body : JSValue) : Prop :=
  truthy (field req_body "name") = true /\
  truthy (field req_body "location") = true /\
  truthy (field req_body "coords") = true /\
  truthy (field (field req_body "coords") "lat") = true /\
  truthy (field (field req_body "coords") "lng") = true.

(** The fields of the public projection. *)
Definition public_keys : list string :=
  ["id"; "name"; "location"; "coords"; "displayName"; "timestamp"].

(** Two rows that differ at most in [notes] and [otherCities]. *)
Definition same_but_hidden (r1 r2 : Row) : Prop :=
  id r1 = id r2 /\ name r1 = name r2 /\ location r1 = location r2 /\
  latitude r1 = latitude r2 /\ longitude r1 = longitude r2 /\
  displayName r1 = displayName r2 /\ timestamp r1 = timestamp r2.


(** "non-null and non-empty" *)
Definition has_text (col : option string) : Prop :=
  exists s, col = Some s /\ s <> "".

(** "the number of rows whose ... is non-null and non-empty" *)
Definition count_with (col : Row -> option string) (l : list Row) : Z :=
  Z.of_nat (List.length (filter (fun r => not_null_nor_empty (col r)) l)).

(** Ids are unique, and none exceeds the AUTOINCREMENT high-water mark. *)
Definition well_formed (db : Db) : Prop :=
  NoDup (map id (rows db)) /\ Forall (fun r => id r <= seq db) (rows db).

(** The items of a JSON array response. *)
Definition items (res : Response) : list JSValue :=
  match body res with
  | JArr l => l
  | _ => []
  end.

(** "includes that record with fields matching the create request": the
    listing has a record with the id of the create response whose fields
    are those of the request. *)
Definition listed_as_requested (req_body : JSValue) (res listing : Response) : Prop :=
  exists rec,
    In rec (items listing) /\
    field rec "id" = field (body res) "id" /\
    (forall k, In k ["name"; "location"; "notes"; "otherCities"; "displayName"] ->
               field rec k = field req_body k) /\
    field (field rec "coords") "lat" = field (field req_body "coords") "lat" /\
    field (field rec "coords") "lng" = field (field req_body "coords") "lng".

(** A string with no unpaired surrogate, that is, well-formed Unicode. *)
Fixpoint has_unpaired_surrogate (s : string) : bool :=
  match s with
  | EmptyString => false
  | String a t =>
      match t with
      | String b (String c _) =>
          unpaired_surrogate a b c || has_unpaired_surrogate t
      | _ => false
      end
  end.

(** The records a client reads in a JSON array answer. *)
Definition received (res : Response) : list JSValue :=
  match wire (body res) with
  | JArr l => l
  | _ => []
  end.

(** The same as the client reads it, with the fields as the table keeps
    them: text for [name] and [location] (the request's when it is a
    well-formed string), finite numbers for the coordinates, and an
    optional field as supplied when it is a non-empty well-formed string,
    [null] when it is falsy. *)
Definition listed_as_stored (req_body : JSValue) (res listing : Response) : Prop :=
  exists rec,
    In rec (received listing) /\
    field rec "id" = field (wire (body res)) "id" /\
    (forall k s, In k ["name"; "location"] ->
                 field req_body k = JStr s ->
                 has_unpaired_surrogate s = false ->
                 field rec k = JStr s) /\
    (forall k f, In k ["lat"; "lng"] ->
                 field (field req_body "coords") k = JNum f ->
                 PrimFloat.is_finite f = true ->
                 field (field rec "coords") k = JNum f) /\
    (forall k, In k ["notes"; "otherCities"; "displayName"] ->
               (forall s, field req_body k = JStr s -> s <> "" ->
                          has_unpaired_surrogate s = false ->
                          field rec k = JStr s) /\
               (falsy (field req_body k) = true -> field rec k = JNull)).






(** "reporting the count": the digits read as the decimal numeral of [n]. *)
Definition reads_as (digits : string) (n : Z) : Prop :=
  exists d, NilZero.int_of_string digits = Some d /\ Z.of_int d = n.

(** The nullable TEXT column behind an optional field of the request. *)
Definition optional_column (k : string) (r : Row) : option string :=
  if String.eqb k "notes" then notes r
  else if String.eqb k "otherCities" then otherCities r
  else displayName r.

(** A request for the running examples. *)
Definition ana : JSValue :=
  JObj [ ("name", JStr "Ana"); ("location", JStr "Rome");
         ("coords", JObj [ ("lat", JNum 41.5%float); ("lng", JNum 12.5%float) ]) ].

Definition ana_with (k : string) (v : JSValue) : JSValue :=
  match ana with
  | JObj fields => JObj ((k, v) :: fields)
  | other => other
  end.

Definition ana_blank_notes : JSValue := ana_with "notes" (JStr "").

Definition ana_with_notes : JSValue := ana_with "notes" (JStr "likes museums").

Definition ana_on_equator : JSValue :=
  ana_with "coords" (JObj [ ("lat", JNum 0%float); ("lng", JNum 12.5%float) ]).

Definition noon : string := "2024-05-01 12:00:00".

Definition one_pm : string := "2024-05-01 13:00:00".

(** The table after Ana was created in an empty database. *)
Definition one_friend : Db :=
  snd (post_friends (H := sample_coercions) false noon ana empty).

(** Two tables that differ in [notes] and [otherCities] only. *)
Definition table_with_secrets : Db :=
  mkDb [ mkRow 1 "Ana" "Rome" (Some "likes museums") (Some "Naples")
               (SqlReal 41.5%float) (SqlReal 12.5%float) None noon;
         mkRow 2 "Bo" "Oslo" None (Some "Bergen")
               (SqlReal 60%float) (SqlReal 10.5%float) (Some "B.") one_pm ] 2.

Definition table_without_secrets : Db :=
  mkDb [ mkRow 1 "Ana" "Rome" None None
               (SqlReal 41.5%float) (SqlReal 12.5%float) None noon;
         mkRow 2 "Bo" "Oslo" (Some "owes me a beer") None
               (SqlReal 60%float) (SqlReal 10.5%float) (Some "B.") one_pm ] 2.

(** A run of the server: two creates, a delete of the first, a create. *)
Definition sample_trace : list (bool * Request) :=
  [ (false, PostFriends noon ana_with_notes);
    (false, PostFriends noon ana);
    (false, DeleteFriend "1");
    (true, DeleteFriends);
    (false, PostFriends one_pm ana_blank_notes) ].

Section Created.
Context `{Coercions}.

(** The text a NOT NULL TEXT column receives. *)
Definition stored_text (v : JSValue) : string :=
  match bind_text v with
  | Some s => s
  | None => ""
  end.

(** The row and the response of a create request that passes validation,
    spelled out for the lemmas below. *)
Definition created_row (now : string) (req_body : JSValue) (db : Db) : Row :=
  mkRow (next_rowid db)
        (stored_text (field req_body "name"))
        (stored_text (field req_body "location"))
        (bind_text (or_null (field req_body "notes")))
        (bind_text (or_null (field req_body "otherCities")))
        (bind_real (field (field req_body "coords") "lat"))
        (bind_real (field (field req_body "coords") "lng"))
        (bind_text (or_null (field req_body "displayName")))
        now.

Definition created_response (req_body : JSValue) (db : Db) : Response :=
  json (JObj [ ("id", JNum (number_of_Z (next_rowid db)));
               ("name", field req_body "name");
               ("location", field req_body "location");
               ("notes", field req_body "notes");
               ("otherCities", field req_body "otherCities");
               ("coords", field req_body "coords");
               ("displayName", field req_body "displayName");
               ("message", JStr "Friend added successfully") ]).

End Created.

(** A record of a listing carries a non-empty string under [k]. *)
Definition with_text (k : string) (o : JSValue) : bool :=
  match field o k with
  | JStr s => negb (String.eqb s "")
  | _ => false
  end.

(** An object without the properties named in [ks]. *)
Definition without_keys (ks : list string) (o : JSValue) : JSValue :=
  match o with
  | JObj fields =>
      JObj (filter (fun kv => negb (existsb (String.eqb (fst kv)) ks)) fields)
  | other => other
  end.

(** The unpaired surrogate U+D800 in WTF-8, and Ana under that name. *)
Definition unpaired_d800 : string :=
  String (ascii_of_nat 237) (String (ascii_of_nat 160)
    (String (ascii_of_nat 128) EmptyString)).

Definition ana_unpaired_name : JSValue := ana_with "name" (JStr unpaired_d800).

(** [coords] as an array, a frequent mistake of clients. *)
Definition ana_coords_array : JSValue :=
  ana_with "coords" (JArr [ JNum 41.5%float; JNum 12.5%float ]).

(* ================================================================= *)
(** ** Lemmas on the model *)

(** *** [ORDER BY timestamp DESC] *)

Section Ordering.



Context {A : Type} (key : A -> string).

Lemma sorter_insert_perm (x : A) (l : list A) :
  Permutation (sorter_insert key x l) (x :: l).
Proof.
  induction l as [ | y l IH]; simpl.
  - reflexivity.
  - destruct (ts_geb (key x) (key y)).
    + reflexivity.
    + rewrite IH. apply perm_swap.
Qed.


Lemma order_by_desc_perm (l : list A) : Permutation (order_by_desc key l) l.
Proof.
  induction l as [ | x l IH]; simpl.
  - constructor.
  - rewrite sorter_insert_perm. now constructor.
Qed.


End Ordering.

(** Sorting the projected rows is projecting the sorted rows: the two
    lists come in the same order. *)
Lemma order_by_desc_map {A B : Type} (f : A -> B) (kA : A -> string) (kB : B -> string) :
  (forall a, kB (f a) = kA a) ->
  forall l, order_by_desc kB (map f l) = map f (order_by_desc kA l).
Proof.
  intros Hk.
  assert (Hins : forall x l, sorter_insert kB (f x) (map f l)
                             = map f (sorter_insert kA x l)).
  { intros x l. induction l as [ | y l IH]; simpl; [ reflexivity | ].
    rewrite !Hk. destruct (ts_geb (kA x) (kA y)); simpl; [ reflexivity | ].
    now rewrite IH. }
  induction l as [ | x l IH]; simpl; [ reflexivity | ].
  now rewrite IH, Hins.
Qed.

Section Properties.
Context `{Coercions}.

Lemma falsy_truthy (v : JSValue) : falsy v = true <-> truthy v = false.
Proof. unfold falsy. destruct (truthy v); simpl; intuition congruence. Qed.

Lemma truthy_not_nullish (v : JSValue) : truthy v = true -> nullish v = false.
Proof. destruct v; simpl; congruence. Qed.

Lemma member_field (v : JSValue) (k : string) :
  nullish v = false -> member v k = Some (field v k).
Proof. unfold field. destruct v; simpl; congruence. Qed.

(** The validation never throws, and it is the disjunction of the five
    falsiness tests. *)
Lemma required_missing_spec (n l c : JSValue) :
  required_missing n l c =
  Some (falsy n || falsy l || falsy c
        || falsy (field c "lat") || falsy (field c "lng")).
Proof.
  unfold required_missing, falsy.
  destruct (truthy n); simpl; [ | reflexivity ].
  destruct (truthy l); simpl; [ | reflexivity ].
  destruct (truthy c) eqn:Hc; simpl; [ | reflexivity ].
  rewrite !(member_field c) by (now apply truthy_not_nullish).
  simpl. destruct (truthy (field c "lat")); reflexivity.
Qed.

Lemma any_required_falsy_iff (req_body : JSValue) :
  any_required_falsy req_body <->
  falsy (field req_body "name") || falsy (field req_body "location")
  || falsy (field req_body "coords")
  || falsy (field (field req_body "coords") "lat")
  || falsy (field (field req_body "coords") "lng") = true.
Proof.
  unfold any_required_falsy. rewrite !orb_true_iff. tauto.
Qed.

Lemma all_required_truthy_iff (req_body : JSValue) :
  all_required_truthy req_body <-> ~ any_required_falsy req_body.
Proof.
  unfold all_required_truthy, any_required_falsy, falsy.
  destruct (truthy (field req_body "name")),
           (truthy (field req_body "location")),
           (truthy (field req_body "coords")),
           (truthy (field (field req_body "coords") "lat")),
           (truthy (field (field req_body "coords") "lng"));
    simpl; intuition congruence.
Qed.

(** The create route on a body that is an object (or any value with
    members): the destructuring succeeds and the handler is its two
    branches. *)
Lemma post_friends_unfold (err : bool) (now : string) (req_body : JSValue) (db : Db) :
  nullish req_body = false ->
  post_friends_body err now req_body db =
  if falsy (field req_body "name") || falsy (field req_body "location")
     || falsy (field req_body "coords")
     || falsy (field (field req_body "coords") "lat")
     || falsy (field (field req_body "coords") "lng")
  then Some (error 400 "Name, location, and coordinates are required", db)
  else run_insert err now (field req_body "name") (field req_body "location")
         (field req_body "notes") (field req_body "otherCities")
         (field req_body "coords") (field req_body "displayName") db.
Proof.
  intros Hb. unfold post_friends_body.
  rewrite !(member_field req_body) by assumption. simpl.
  rewrite required_missing_spec. reflexivity.
Qed.

Lemma bind_text_truthy (v : JSValue) :
  truthy v = true -> bind_text v = Some (stored_text v).
Proof. unfold stored_text. destruct v; simpl; congruence. Qed.

Lemma bind_real_truthy (v : JSValue) :
  truthy v = true -> is_null (bind_real v) = false.
Proof.
  destruct v; simpl; try congruence;
    try (intros _; destruct (real_of_value _); reflexivity).
  destruct (PrimFloat.is_nan f); [ rewrite orb_true_r; discriminate | ].
  destruct (PrimFloat.is_zero f); [ discriminate | reflexivity ].
Qed.

Lemma bind_real_number (f : float) :
  truthy (JNum f) = true -> bind_real (JNum f) = SqlReal f.
Proof.
  simpl. destruct (PrimFloat.is_nan f); [ rewrite orb_true_r; discriminate | ].
  destruct (PrimFloat.is_zero f); [ discriminate | reflexivity ].
Qed.

(** After validation the statement runs; its callback answers 500 or 200
    and nothing is thrown. *)
Lemma run_insert_status (err : bool) (now : string)
    (n l nt oc c dn : JSValue) (db : Db) :
  truthy c = true ->
  exists res db', run_insert err now n l nt oc c dn db = Some (res, db') /\
                  (status res = 500 \/ status res = 200).
Proof.
  intros Hc. unfold run_insert.
  rewrite !(member_field c) by (now apply truthy_not_nullish). simpl.
  destruct (if err then None else _) as [[i d] | ];
    eexists; eexists; split; try reflexivity; simpl; auto.
Qed.

(** A create request that passes validation, when the statement does not
    fail: the row is appended under a fresh rowid. *)
Lemma post_friends_ok (now : string) (req_body : JSValue) (db : Db) :
  nullish req_body = false ->
  all_required_truthy req_body ->
  post_friends false now req_body db =
  (created_response req_body db,
   mkDb (rows db ++ [created_row now req_body db]) (next_rowid db)).
Proof.
  intros Hb Hall. pose proof Hall as (Hn & Hl & Hc & Hlat & Hlng).
  unfold post_friends. rewrite post_friends_unfold by assumption.
  apply all_required_truthy_iff in Hall.
  rewrite any_required_falsy_iff in Hall.
  apply not_true_is_false in Hall. rewrite Hall.
  unfold run_insert.
  rewrite !(member_field (field req_body "coords"))
    by (now apply truthy_not_nullish).
  simpl. unfold insert.
  rewrite (bind_text_truthy _ Hn), (bind_text_truthy _ Hl).
  rewrite (bind_real_truthy _ Hlat), (bind_real_truthy _ Hlng). simpl.
  reflexivity.
Qed.

Lemma post_friends_invalid (err : bool) (now : string) (req_body : JSValue) (db : Db) :
  nullish req_body = false ->
  any_required_falsy req_body ->
  post_friends err now req_body db =
  (error 400 "Name, location, and coordinates are required", db).
Proof.
  intros Hb Hany. unfold post_friends.
  rewrite post_friends_unfold by assumption.
  apply any_required_falsy_iff in Hany. rewrite Hany. reflexivity.
Qed.

(** C1. The create route answers 400 exactly when one of [name],
    [location], [coords], [coords.lat], [coords.lng] is falsy; it then
    answers with the validation error and leaves the table as it was.  In
    particular a latitude or a longitude equal to 0 is rejected. *)
Theorem create_validation (err : bool) (now : string) (req_body : JSValue) (db : Db) :
  nullish req_body = false ->
  (status (fst (post_friends err now req_body db)) = 400 <->
   any_required_falsy req_body) /\
  (any_required_falsy req_body ->
   fst (post_friends err now req_body db) =
     error 400 "Name, location, and coordinates are required" /\
   snd (post_friends err now req_body db) = db) /\
  (field (field req_body "coords") "lat" = JNum 0%float \/
   field (field req_body "coords") "lng" = JNum 0%float ->
   status (fst (post_friends err now req_body db)) = 400 /\
   snd (post_friends err now req_body db) = db).
Proof.
  intros Hb.
  assert (Hinv : any_required_falsy req_body ->
                 fst (post_friends err now req_body db) =
                   error 400 "Name, location, and coordinates are required" /\
                 snd (post_friends err now req_body db) = db).
  { intros Hany. rewrite post_friends_invalid by assumption. split; reflexivity. }
  split; [ | split ].
  - split.
    + intros Hst.
      destruct (falsy (field req_body "name") || falsy (field req_body "location")
                || falsy (field req_body "coords")
                || falsy (field (field req_body "coords") "lat")
                || falsy (field (field req_body "coords") "lng")) eqn:Hany.
      * now apply any_required_falsy_iff.
      * exfalso. revert Hst. unfold post_friends.
        rewrite post_friends_unfold, Hany by assumption.
        assert (Hc : truthy (field req_body "coords") = true).
        { rewrite !orb_false_iff in Hany.
          destruct Hany as [[[_ Hc] _] _]. now apply negb_false_iff in Hc. }
        destruct (run_insert_status err now (field req_body "name")
                    (field req_body "location") (field req_body "notes")
                    (field req_body "otherCities") (field req_body "coords")
                    (field req_body "displayName") db Hc)
          as (res & db' & -> & [Hs | Hs]); simpl; rewrite Hs; discriminate.
    + intros Hany. destruct (Hinv Hany) as [-> _]. reflexivity.
  - exact Hinv.
  - intros Hzero.
    assert (Hany : any_required_falsy req_body).
    { unfold any_required_falsy.
      destruct Hzero as [-> | ->]; [ right; right; right; left
                                   | right; right; right; right ]; reflexivity. }
    destruct (Hinv Hany) as [-> ->]. split; reflexivity.
Qed.

Lemma post_friends_failed (now : string) (req_body : JSValue) (db : Db) :
  nullish req_body = false ->
  all_required_truthy req_body ->
  post_friends true now req_body db = (error 500 "Failed to add friend", db).
Proof.
  intros Hb Hall. pose proof Hall as (_ & _ & Hc & _ & _).
  unfold post_friends. rewrite post_friends_unfold by assumption.
  apply all_required_truthy_iff in Hall.
  rewrite any_required_falsy_iff in Hall.
  apply not_true_is_false in Hall. rewrite Hall.
  unfold run_insert.
  rewrite !(member_field (field req_body "coords"))
    by (now apply truthy_not_nullish).
  reflexivity.
Qed.

(** *** What the client reads *)

Lemma wire_props_cons (k : string) (x : JSValue) (rest : list (string * JSValue)) :
  wire_props ((k, x) :: rest) =
  match x with
  | JUndefined => wire_props rest
  | _ => (k, wire x) :: wire_props rest
  end.
Proof. destruct x; reflexivity. Qed.

Lemma lookup_wire_props_absent (k : string) (fs : list (string * JSValue)) :
  ~ In k (map fst fs) -> lookup k (wire_props fs) = JUndefined.
Proof.
  induction fs as [ | [k' x] rest IH]; intros Hk; [ reflexivity | ].
  simpl in Hk. rewrite wire_props_cons.
  assert (Hrest : lookup k (wire_props rest) = JUndefined)
    by (apply IH; tauto).
  assert (Hne : String.eqb k k' = false)
    by (apply String.eqb_neq; intros ->; tauto).
  destruct x; try exact Hrest; cbn [lookup]; now rewrite Hne.
Qed.

Lemma lookup_wire_props (k : string) (fs : list (string * JSValue)) :
  NoDup (map fst fs) -> lookup k (wire_props fs) = wire (lookup k fs).
Proof.
  induction fs as [ | [k' x] rest IH]; intros Hnd; [ reflexivity | ].
  simpl in Hnd. inversion Hnd as [ | ? ? Hnot Hrest]; subst.
  rewrite wire_props_cons. cbn [lookup].
  destruct (String.eqb k k') eqn:Hk.
  - apply String.eqb_eq in Hk. subst k'.
    destruct x; cbn [lookup]; rewrite ?String.eqb_refl; try reflexivity.
    now apply lookup_wire_props_absent.
  - destruct x; cbn [lookup]; rewrite ?Hk; now apply IH.
Qed.

Lemma field_wire_object (k : string) (fs : list (string * JSValue)) :
  NoDup (map fst fs) -> field (wire (JObj fs)) k = wire (lookup k fs).
Proof.
  intros Hnd. rewrite <- (lookup_wire_props k fs Hnd). reflexivity.
Qed.

Lemma wire_number (f : float) :
  truthy (JNum f) = true -> PrimFloat.is_finite f = true -> wire (JNum f) = JNum f.
Proof.
  simpl. intros Ht Hf. rewrite Hf.
  destruct (PrimFloat.is_zero f); [ discriminate | reflexivity ].
Qed.

Lemma wire_friend_of_row (row : Row) :
  wire (friend_of_row row) =
  JObj [ ("id", wire (JNum (number_of_Z (id row))));
         ("name", JStr (name row));
         ("location", JStr (location row));
         ("notes", js_of_text (notes row));
         ("otherCities", js_of_text (otherCities row));
         ("coords", JObj [ ("lat", wire (js_of_sqlval (latitude row)));
                           ("lng", wire (js_of_sqlval (longitude row))) ]);
         ("displayName", js_of_text (displayName row));
         ("timestamp", JStr (timestamp row)) ].
Proof.
  destruct row as [i n l nt oc la lo dn ts].
  destruct nt, oc, dn, la, lo; reflexivity.
Qed.

Lemma received_get_friends (db : Db) :
  received (get_friends false db)
  = map (fun row => wire (friend_of_row row)) (select_all db).
Proof.
  unfold received, get_friends, json. cbn [body].
  change (wire_elems (map friend_of_row (select_all db))
          = map (fun row => wire (friend_of_row row)) (select_all db)).
  induction (select_all db) as [ | row l IH]; [ reflexivity | ].
  cbn [map]. rewrite <- IH. reflexivity.
Qed.

(** *** The two lists *)

Lemma public_columns_hidden (l1 l2 : list Row) :
  Forall2 same_but_hidden l1 l2 -> map public_columns l1 = map public_columns l2.
Proof.
  induction 1 as [ | r1 r2 l1 l2 Hr _ IH]; simpl; [ reflexivity | ].
  destruct Hr as (Hi & Hn & Hl & Hla & Hlo & Hd & Ht).
  rewrite IH. unfold public_columns.
  now rewrite Hi, Hn, Hl, Hla, Hlo, Hd, Ht.
Qed.

Lemma same_but_hidden_refl (l : list Row) : Forall2 same_but_hidden l l.
Proof. induction l; constructor; unfold same_but_hidden; intuition. Qed.

Lemma select_public_select_all (db : Db) :
  select_public db = map public_columns (select_all db).
Proof.
  unfold select_public, select_all. now apply order_by_desc_map.
Qed.

(** C2. The public list answers with one record per stored row, each made
    of exactly id, name, location, coords, displayName and timestamp (so
    with neither [notes] nor [otherCities]); two tables whose rows differ
    only in [notes] and [otherCities] get the same public answer; and two
    create requests that differ only in [notes] and [otherCities] lead to
    the same public answer. *)
Theorem public_list_hides_notes :
  (forall db, exists l,
      get_friends_public false db = json (JArr l) /\
      List.length l = List.length (rows db) /\
      Forall (fun o => keys o = public_keys /\
                       field o "notes" = JUndefined /\
                       field o "otherCities" = JUndefined) l) /\
  (forall err db1 db2,
      Forall2 same_but_hidden (rows db1) (rows db2) ->
      get_friends_public err db1 = get_friends_public err db2) /\
  (forall err err' now b1 b2 db,
      nullish b1 = false -> nullish b2 = false ->
      field b1 "name" = field b2 "name" ->
      field b1 "location" = field b2 "location" ->
      field b1 "coords" = field b2 "coords" ->
      field b1 "displayName" = field b2 "displayName" ->
      get_friends_public err' (snd (post_friends err now b1 db)) =
      get_friends_public err' (snd (post_friends err now b2 db))).
Proof.
  assert (Hhide : forall err db1 db2,
             Forall2 same_but_hidden (rows db1) (rows db2) ->
             get_friends_public err db1 = get_friends_public err db2).
  { intros err db1 db2 Hrows. unfold get_friends_public, select_public.
    now rewrite (public_columns_hidden _ _ Hrows). }
  split; [ | split ].
  - intros db. eexists. split; [ reflexivity | split ].
    + rewrite length_map. unfold select_public.
      rewrite (Permutation_length (order_by_desc_perm _ _)).
      apply length_map.
    + apply Forall_map. apply Forall_forall. intros row _.
      repeat split.
  - exact Hhide.
  - intros err err' now b1 b2 db Hb1 Hb2 Hn Hl Hc Hd.
    destruct (truthy (field b1 "name") && truthy (field b1 "location")
              && truthy (field b1 "coords")
              && truthy (field (field b1 "coords") "lat")
              && truthy (field (field b1 "coords") "lng")) eqn:Hok.
    + assert (H1 : all_required_truthy b1).
      { unfold all_required_truthy. rewrite !andb_true_iff in Hok. tauto. }
      assert (H2 : all_required_truthy b2).
      { unfold all_required_truthy. rewrite <- Hn, <- Hl, <- Hc. exact H1. }
      destruct err.
      * now rewrite !post_friends_failed.
      * rewrite !post_friends_ok by assumption. apply Hhide. simpl.
        apply Forall2_app; [ apply same_but_hidden_refl | ].
        constructor; [ | constructor ].
        unfold same_but_hidden, created_row. simpl.
        now rewrite Hn, Hl, Hc, Hd.
    + assert (H1 : any_required_falsy b1).
      { apply any_required_falsy_iff. unfold falsy.
        rewrite <- !negb_andb. now rewrite Hok. }
      assert (H2 : any_required_falsy b2).
      { unfold any_required_falsy. rewrite <- Hn, <- Hl, <- Hc. exact H1. }
      now rewrite !post_friends_invalid.
Qed.






(** *** Create, then list *)

Lemma max_rowid_ge (l : list Row) (r : Row) : In r l -> id r <= max_rowid l.
Proof.
  induction l as [ | x l IH]; simpl; [ tauto | ].
  intros [-> | Hin]; [ lia | specialize (IH Hin); lia ].
Qed.

Lemma next_rowid_fresh (db : Db) :
  ~ In (next_rowid db) (map id (rows db)) /\ seq db < next_rowid db.
Proof.
  unfold next_rowid. split; [ | lia ].
  intros Hin. apply in_map_iff in Hin. destruct Hin as (r & Hr & Hin).
  apply max_rowid_ge in Hin. lia.
Qed.

Lemma created_row_listed (now : string) (req_body : JSValue) (db : Db) :
  In (friend_of_row (created_row now req_body db))
     (items (get_friends false
               (mkDb (rows db ++ [created_row now req_body db]) (next_rowid db)))).
Proof.
  unfold items, get_friends, json. cbn [body].
  apply in_map.
  apply (Permutation_in _ (Permutation_sym (order_by_desc_perm _ _))).
  cbn [rows]. apply in_or_app. right. now left.
Qed.

Lemma to_utf8_nonempty (s : string) : s <> "" -> to_utf8 s <> "".
Proof.
  destruct s as [ | a [ | b [ | c rest ] ] ]; try congruence; intros _;
    try discriminate.
  simpl. destruct (unpaired_surrogate a b c); discriminate.
Qed.

Lemma to_utf8_well_formed (s : string) :
  has_unpaired_surrogate s = false -> to_utf8 s = s.
Proof.
  induction s as [ | a t IH]; [ reflexivity | ].
  destruct t as [ | b [ | c rest ] ]; try reflexivity.
  intros Hw.
  change (unpaired_surrogate a b c
          || has_unpaired_surrogate (String b (String c rest)) = false) in Hw.
  apply orb_false_iff in Hw. destruct Hw as [Hu Ht].
  change (to_utf8 (String a (String b (String c rest))))
    with (if unpaired_surrogate a b c
          then (replacement_character ++ to_utf8 rest)%string
          else String a (to_utf8 (String b (String c rest)))).
  rewrite Hu. f_equal. now apply IH.
Qed.

Lemma bind_text_or_null_string (s : string) :
  s <> "" -> bind_text (or_null (JStr s)) = Some (to_utf8 s).
Proof.
  intros Hs. unfold or_null. simpl.
  apply String.eqb_neq in Hs. now rewrite Hs.
Qed.


Lemma bind_text_or_null_falsy (v : JSValue) :
  falsy v = true -> bind_text (or_null v) = None.
Proof.
  intros Hv. apply falsy_truthy in Hv. unfold or_null. now rewrite Hv.
Qed.

Ltac split_keys Hk :=
  simpl in Hk;
  repeat (destruct Hk as [<- | Hk]; [ | try contradiction ]).

Lemma created_response_keys (req_body : JSValue) (db : Db) :
  NoDup (map fst
    [ ("id", JNum (number_of_Z (next_rowid db)));
      ("name", field req_body "name");
      ("location", field req_body "location");
      ("notes", field req_body "notes");
      ("otherCities", field req_body "otherCities");
      ("coords", field req_body "coords");
      ("displayName", field req_body "displayName");
      ("message", JStr "Friend added successfully") ]).
Proof.
  cbn [map fst].
  repeat (constructor; [ simpl; intuition discriminate | ]). constructor.
Qed.

Lemma created_row_received (now : string) (req_body : JSValue) (db : Db) :
  In (wire (friend_of_row (created_row now req_body db)))
     (received (get_friends false
                  (mkDb (rows db ++ [created_row now req_body db]) (next_rowid db)))).
Proof.
  rewrite received_get_friends.
  apply (in_map (fun row => wire (friend_of_row row))).
  apply (Permutation_in _ (Permutation_sym (order_by_desc_perm _ _))).
  cbn [rows]. apply in_or_app. right. now left.
Qed.

(** C3, as the code has it. A create request whose required fields are
    all truthy is answered 200 with the request's fields (as JSON carries
    them to the client) and a fresh id, and the privileged list, as the
    client reads it, then has a record with that id whose [name] and
    [location] are the request's when these are well-formed strings,
    whose coordinates are the request's when these are finite numbers,
    and whose optional fields are the request's when these are non-empty
    well-formed strings and [null] when they are falsy. *)
Theorem create_then_list (now : string) (req_body : JSValue) (db : Db) :
  nullish req_body = false ->
  all_required_truthy req_body ->
  status (fst (post_friends false now req_body db)) = 200 /\
  (forall k, In k ["name"; "location"; "notes"; "otherCities"; "coords"; "displayName"] ->
             field (body (fst (post_friends false now req_body db))) k
             = field req_body k) /\
  (forall k, In k ["name"; "location"; "notes"; "otherCities"; "coords"; "displayName"] ->
             field (wire (body (fst (post_friends false now req_body db)))) k
             = wire (field req_body k)) /\
  field (body (fst (post_friends false now req_body db))) "id"
    = JNum (number_of_Z (next_rowid db)) /\
  ~ In (next_rowid db) (map id (rows db)) /\
  seq db < next_rowid db /\
  listed_as_stored req_body
    (fst (post_friends false now req_body db))
    (get_friends false (snd (post_friends false now req_body db))).
Proof.
  intros Hb Hall. rewrite post_friends_ok by assumption.
  destruct Hall as (Hn & Hl & Hc & Hlat & Hlng).
  destruct (next_rowid_fresh db) as [Hfresh Hseq].
  cbn [fst snd].
  split; [ reflexivity | ].
  split; [ intros k Hk; split_keys Hk; reflexivity | ].
  split.
  { intros k Hk. unfold created_response, json. cbn [body].
    rewrite field_wire_object by apply created_response_keys.
    split_keys Hk; reflexivity. }
  split; [ reflexivity | ].
  split; [ assumption | ].
  split; [ assumption | ].
  exists (wire (friend_of_row (created_row now req_body db))).
  split; [ apply created_row_received | ].
  split.
  { unfold created_response, json. cbn [body].
    rewrite field_wire_object by apply created_response_keys.
    rewrite wire_friend_of_row. reflexivity. }
  rewrite wire_friend_of_row.
  split; [ | split ].
  - intros k s Hk Hs Hw. split_keys Hk;
      unfold field at 1; cbn [member lookup String.eqb Ascii.eqb Bool.eqb];
      cbn [created_row name location]; rewrite Hs;
      unfold stored_text; cbn [bind_text];
      now rewrite to_utf8_well_formed.
  - intros k f Hk Hf Hfin.
    assert (Ht : truthy (JNum f) = true)
      by (split_keys Hk; rewrite <- Hf; assumption).
    split_keys Hk;
      unfold field at 1 2; cbn [member lookup String.eqb Ascii.eqb Bool.eqb];
      cbn [created_row latitude longitude]; rewrite Hf;
      rewrite (bind_real_number f Ht); cbn [js_of_sqlval];
      now apply wire_number.
  - intros k Hk. split_keys Hk; (split; [ intros s Hs Hne Hw | intros Hf ]);
      unfold field at 1; cbn [member lookup String.eqb Ascii.eqb Bool.eqb];
      cbn [created_row notes otherCities displayName];
      try (rewrite Hs, (bind_text_or_null_string s) by assumption;
           cbn [js_of_text]; now rewrite to_utf8_well_formed);
      rewrite bind_text_or_null_falsy by assumption; reflexivity.
Qed.

(** The restriction to strings above is needed: a [name] that is not a
    string is stored as text and listed as a string. *)
Remark name_listed_as_text (now : string) (req_body : JSValue) (db : Db) :
  nullish req_body = false ->
  all_required_truthy req_body ->
  exists row s,
    In row (rows (snd (post_friends false now req_body db))) /\
    id row = next_rowid db /\
    field (friend_of_row row) "name" = JStr s.
Proof.
  intros Hb Hall. rewrite post_friends_ok by assumption.
  exists (created_row now req_body db). eexists. split; [ | split ].
  - cbn [snd rows]. apply in_or_app. right. now left.
  - reflexivity.
  - reflexivity.
Qed.

(** C9. On a successful create the response carries each optional field
    as the request had it, while a falsy optional field is stored as NULL
    and listed as [null]. *)
Theorem falsy_optional_stored_null (now : string) (req_body : JSValue) (db : Db)
    (k : string) :
  nullish req_body = false ->
  all_required_truthy req_body ->
  In k ["notes"; "otherCities"; "displayName"] ->
  falsy (field req_body k) = true ->
  status (fst (post_friends false now req_body db)) = 200 /\
  field (body (fst (post_friends false now req_body db))) k = field req_body k /\
  exists row,
    In row (rows (snd (post_friends false now req_body db))) /\
    id row = next_rowid db /\
    optional_column k row = None /\
    In (friend_of_row row)
       (items (get_friends false (snd (post_friends false now req_body db)))) /\
    field (friend_of_row row) "id"
      = field (body (fst (post_friends false now req_body db))) "id" /\
    field (friend_of_row row) k = JNull.
Proof.
  intros Hb Hall Hk Hf. rewrite post_friends_ok by assumption.
  cbn [fst snd]. split; [ reflexivity | ]. split.
  - split_keys Hk; reflexivity.
  - exists (created_row now req_body db). split; [ | split; [ | split; [ | split; [ | split ] ] ] ].
    + cbn [rows]. apply in_or_app. right. now left.
    + reflexivity.
    + split_keys Hk; unfold optional_column; simpl;
        now apply bind_text_or_null_falsy.
    + apply created_row_listed.
    + reflexivity.
    + split_keys Hk; unfold field; simpl;
        rewrite bind_text_or_null_falsy by assumption; reflexivity.
Qed.

(** *** Deleting *)


Lemma id_matches_iff (friendId : string) (r : Row) :
  id_matches friendId r = true <-> rowid_of_text friendId = Some (id r).
Proof.
  unfold id_matches. destruct (rowid_of_text friendId) as [i | ].
  - rewrite Z.eqb_eq. split; [ now intros -> | congruence ].
  - split; discriminate.
Qed.

Lemma db_eta (db : Db) : mkDb (rows db) (seq db) = db.
Proof. now destruct db. Qed.


Lemma template_of_Z_reads_as (n : Z) : reads_as (template_of_Z n) n.
Proof.
  exists (Z.to_int n). split; [ | apply DecimalZ.of_to ].
  unfold template_of_Z. apply NilZero.isi.
  - destruct n; simpl; try discriminate.
    intros [= Hnil]. exact (DecimalPos.Unsigned.to_uint_nonnil _ Hnil).
  - destruct n; simpl; try discriminate.
    intros [= Hnil]. exact (DecimalPos.Unsigned.to_uint_nonnil _ Hnil).
Qed.

(** C5. Delete-all leaves no row and answers 200 with the message
    "Deleted N friends", where the digits N read as the number of rows
    the table had: "Deleted 2 friends" for a table of two rows, "Deleted
    12 friends" for a table of twelve.  The lists that follow are empty. *)
Theorem delete_all_count (db : Db) :
  (exists digits,
      delete_friends false db =
        (mkResponse 200
           (JObj [("message", JStr ("Deleted " ++ digits ++ " friends")%string)]),
         mkDb [] (seq db)) /\
      reads_as digits (Z.of_nat (List.length (rows db)))) /\
  (forall r1 r2 high,
      delete_friends false (mkDb [r1; r2] high) =
        (mkResponse 200 (JObj [("message", JStr "Deleted 2 friends")]),
         mkDb [] high)) /\
  (forall l high,
      List.length l = 12%nat ->
      delete_friends false (mkDb l high) =
        (mkResponse 200 (JObj [("message", JStr "Deleted 12 friends")]),
         mkDb [] high)) /\
  rows (snd (delete_friends false db)) = [] /\
  get_friends false (snd (delete_friends false db))
    = mkResponse 200 (JArr []) /\
  get_friends_public false (snd (delete_friends false db))
    = mkResponse 200 (JArr []).
Proof.
  split; [ | split; [ | split; [ | repeat split ] ] ].
  - exists (template_of_Z (Z.of_nat (List.length (rows db)))).
    split; [ reflexivity | apply template_of_Z_reads_as ].
  - reflexivity.
  - intros l high Hlen. unfold delete_friends, delete_all. cbn [rows seq].
    rewrite Hlen. reflexivity.
Qed.

(** C10. Delete-all never answers 404; on an empty table it answers 200
    "Deleted 0 friends", where delete-one answers 404. *)
Theorem delete_all_never_not_found (err : bool) (db : Db) (high : Z)
    (friendId : string) :
  status (fst (delete_friends err db)) <> 404 /\
  delete_friends false (mkDb [] high)
    = (mkResponse 200 (JObj [("message", JStr "Deleted 0 friends")]), mkDb [] high) /\
  delete_friend false friendId (mkDb [] high)
    = (mkResponse 404 (JObj [("error", JStr "Friend not found")]), mkDb [] high).
Proof.
  split; [ | split; reflexivity ].
  destruct err; simpl; discriminate.
Qed.

(** *** Stats *)

Lemma not_null_nor_empty_iff (col : option string) :
  not_null_nor_empty col = true <-> has_text col.
Proof.
  unfold has_text. destruct col as [s | ]; simpl.
  - rewrite negb_true_iff, String.eqb_neq. split.
    + intros Hs. now exists s.
    + intros (s' & Hs' & Hne). congruence.
  - split; [ discriminate | intros (s & Hs & _); discriminate ].
Qed.

Lemma fold_count_step (l : list Row) (acc : StatsRow) :
  fold_left count_step l acc =
  mkStatsRow (totalFriends acc + Z.of_nat (List.length l))
             (friendsWithNotes acc + count_with notes l)
             (friendsWithRecommendations acc + count_with otherCities l).
Proof.
  revert acc. induction l as [ | r l IH]; intros [t n o]; simpl.
  - unfold count_with. simpl. f_equal; lia.
  - rewrite IH. unfold count_step, count_with. cbn [totalFriends friendsWithNotes
      friendsWithRecommendations filter].
    destruct (not_null_nor_empty (notes r)),
             (not_null_nor_empty (otherCities r));
      cbn [List.length]; f_equal; lia.
Qed.

Lemma select_stats_counts (db : Db) :
  select_stats db =
  mkStatsRow (Z.of_nat (List.length (rows db)))
             (count_with notes (rows db))
             (count_with otherCities (rows db)).
Proof. unfold select_stats. now rewrite fold_count_step. Qed.

(** C6. The stats are the number of rows, the number of rows whose
    [notes] is non-null and non-empty, and the number of rows whose
    [otherCities] is non-null and non-empty.  On a table that was empty,
    after one create with notes and one without, [totalFriends] is 2 and
    [friendsWithNotes] is 1. *)
Theorem stats_report :
  (forall db,
      get_stats false db =
      json (JObj [ ("totalFriends",
                    JNum (number_of_Z (Z.of_nat (List.length (rows db)))));
                   ("friendsWithNotes",
                    JNum (number_of_Z (count_with notes (rows db))));
                   ("friendsWithRecommendations",
                    JNum (number_of_Z (count_with otherCities (rows db)))) ])) /\
  (forall col, not_null_nor_empty col = true <-> has_text col) /\
  (forall now1 now2 b1 b2 high s,
      nullish b1 = false -> all_required_truthy b1 ->
      nullish b2 = false -> all_required_truthy b2 ->
      field b1 "notes" = JStr s -> s <> "" ->
      falsy (field b2 "notes") = true ->
      let db1 := snd (post_friends false now1 b1 (mkDb [] high)) in
      let db2 := snd (post_friends false now2 b2 db1) in
      field (body (get_stats false db2)) "totalFriends" = JNum 2%float /\
      field (body (get_stats false db2)) "friendsWithNotes" = JNum 1%float).
Proof.
  split; [ | split ].
  - intros db. unfold get_stats. now rewrite select_stats_counts.
  - exact not_null_nor_empty_iff.
  - intros now1 now2 b1 b2 high s Hb1 H1 Hb2 H2 Hs Hne Hf db1 db2.
    subst db2 db1. rewrite (post_friends_ok now1 b1) by assumption.
    cbn [snd]. rewrite (post_friends_ok now2 b2) by assumption.
    cbn [snd]. unfold get_stats. rewrite select_stats_counts.
    cbn [rows app List.length]. unfold count_with, created_row.
    cbn [filter notes]. rewrite Hs.
    rewrite (bind_text_or_null_string s) by assumption.
    rewrite (bind_text_or_null_falsy (field b2 "notes")) by assumption.
    cbn [not_null_nor_empty].
    rewrite (proj2 (String.eqb_neq _ _) (to_utf8_nonempty s Hne)).
    split; reflexivity.
Qed.

(** *** The table along a run of the server *)

Lemma post_friends_db (err : bool) (now : string) (req_body : JSValue) (db : Db) :
  snd (post_friends err now req_body db) = db \/
  exists r, id r = next_rowid db /\
            snd (post_friends err now req_body db)
            = mkDb (rows db ++ [r]) (next_rowid db).
Proof.
  destruct (nullish req_body) eqn:Hb.
  - left. destruct req_body; try discriminate; reflexivity.
  - unfold post_friends. rewrite post_friends_unfold by assumption.
    destruct (_ || _); [ now left | ].
    unfold run_insert.
    destruct (member (field req_body "coords") "lat") as [lat | ];
      [ | now left ].
    destruct (member (field req_body "coords") "lng") as [lng | ];
      [ | now left ].
    cbn [bind_opt]. destruct err; [ now left | ].
    unfold insert.
    destruct (bind_text (field req_body "name")); [ | now left ].
    destruct (bind_text (field req_body "location")); [ | now left ].
    destruct (_ || _); [ now left | ].
    right. eexists. split; [ | reflexivity ]. reflexivity.
Qed.

Lemma well_formed_empty : well_formed empty.
Proof. split; constructor. Qed.

Lemma well_formed_append (db : Db) (r : Row) :
  well_formed db -> id r = next_rowid db ->
  well_formed (mkDb (rows db ++ [r]) (next_rowid db)).
Proof.
  intros [Hnodup Hle] Hid. destruct (next_rowid_fresh db) as [Hfresh Hseq].
  split; cbn [rows seq].
  - rewrite map_app. simpl. apply NoDup_app_remove_l with (l := []).
    simpl. apply Permutation_NoDup with (l := id r :: map id (rows db)).
    + apply Permutation_cons_append.
    + constructor; [ now rewrite Hid | assumption ].
  - apply Forall_app. split.
    + eapply Forall_impl; [ | exact Hle ]. simpl. intros; lia.
    + constructor; [ lia | constructor ].
Qed.

Lemma well_formed_filter (f : Row -> bool) (db : Db) :
  well_formed db -> well_formed (mkDb (filter f (rows db)) (seq db)).
Proof.
  intros [Hnodup Hle]. split; cbn [rows seq].
  - clear Hle. induction (rows db) as [ | r l IH]; simpl; [ constructor | ].
    inversion Hnodup as [ | ? ? Hnot Hrest]; subst.
    destruct (f r); simpl; [ | now apply IH ].
    constructor; [ | now apply IH ].
    intros Hin. apply Hnot. apply in_map_iff in Hin.
    destruct Hin as (x & Hx & Hin). apply filter_In in Hin.
    apply in_map_iff. exists x. tauto.
  - apply Forall_forall. intros x Hx. apply filter_In in Hx.
    rewrite Forall_forall in Hle. now apply Hle.
Qed.

(** One request: the invariant is kept, the high-water mark does not go
    down, and a row of the new table is a row of the old one or carries a
    rowid above the old mark. *)
Lemma handle_step (err : bool) (rq : Request) (db : Db) :
  well_formed db ->
  well_formed (snd (handle err rq db)) /\
  seq db <= seq (snd (handle err rq db)) /\
  (forall r, In r (rows (snd (handle err rq db))) ->
             In r (rows db) \/ seq db < id r).
Proof.
  intros Hwf. destruct rq; cbn [handle snd].
  - split; [ assumption | split; [ lia | tauto ] ].
  - split; [ assumption | split; [ lia | tauto ] ].
  - destruct (post_friends_db err now req_body db) as [-> | (r & Hid & ->)].
    + split; [ assumption | split; [ lia | tauto ] ].
    + destruct (next_rowid_fresh db) as [_ Hseq].
      split; [ now apply well_formed_append | ].
      cbn [rows seq]. split; [ lia | ].
      intros x Hx. apply in_app_or in Hx. destruct Hx as [Hx | [<- | []]].
      * now left.
      * right. lia.
  - unfold delete_friend, delete_where_id. destruct err; cbn [snd].
    + split; [ assumption | split; [ lia | tauto ] ].
    + destruct (_ =? 0); cbn [snd rows seq];
        (split; [ now apply well_formed_filter | ]);
        (split; [ lia | ]);
        intros r Hr; apply filter_In in Hr; tauto.
  - unfold delete_friends, delete_all. destruct err; cbn [snd rows seq].
    + split; [ assumption | split; [ lia | tauto ] ].
    + split; [ split; constructor | ]. split; [ lia | intros r [] ].
  - split; [ assumption | split; [ lia | tauto ] ].
Qed.

Lemma serve_run (trace : list (bool * Request)) (db : Db) :
  well_formed db ->
  well_formed (serve trace db) /\
  (forall r, In r (rows (serve trace db)) -> In r (rows db) \/ seq db < id r).
Proof.
  revert db. induction trace as [ | [err rq] rest IH]; intros db Hwf; simpl.
  - split; [ assumption | tauto ].
  - destruct (handle_step err rq db Hwf) as (Hwf' & Hseq & Hrows).
    destruct (IH _ Hwf') as (Hwf'' & Hrows').
    split; [ assumption | ].
    intros r Hr. destruct (Hrows' r Hr) as [Hin | Hlt].
    + now apply Hrows.
    + right. lia.
Qed.

Lemma unique_id_same_row (l : list Row) (r r' : Row) :
  NoDup (map id l) -> In r l -> In r' l -> id r' = id r -> r' = r.
Proof.
  induction l as [ | x l IH]; simpl; [ tauto | ].
  intros Hnodup Hr Hr' Hid. inversion Hnodup as [ | ? ? Hnot Hrest]; subst.
  destruct Hr as [-> | Hr], Hr' as [-> | Hr'].
  - reflexivity.
  - exfalso. apply Hnot. rewrite <- Hid. now apply in_map.
  - exfalso. apply Hnot. rewrite Hid. now apply in_map.
  - now apply IH.
Qed.

(** C8. From a table with unique ids, after any run of requests the ids
    are still unique and a row that carries the id of an initial row is
    that row, unchanged; a row leaves the table only through a successful
    delete-one on its id or a successful delete-all. *)
Theorem ids_unique_rows_immutable (db : Db) (trace : list (bool * Request)) :
  well_formed db ->
  well_formed (serve trace db) /\
  NoDup (map id (rows (serve trace db))) /\
  (forall r r',
      In r (rows db) -> In r' (rows (serve trace db)) ->
      id r' = id r -> r' = r) /\
  (forall err rq r,
      In r (rows db) -> ~ In r (rows (snd (handle err rq db))) ->
      err = false /\
      ((exists friendId, rq = DeleteFriend friendId /\
                         rowid_of_text friendId = Some (id r))
       \/ rq = DeleteFriends)).
Proof.
  intros Hwf. destruct (serve_run trace db Hwf) as (Hwf' & Hrows).
  split; [ assumption | ]. split; [ apply Hwf' | ]. split.
  - intros r r' Hr Hr' Hid. destruct (Hrows r' Hr') as [Hin | Hlt].
    + destruct Hwf as [Hnodup _]. now apply (unique_id_same_row (rows db)).
    + exfalso. destruct Hwf as [_ Hle]. rewrite Forall_forall in Hle.
      specialize (Hle r Hr). lia.
  - intros err rq r Hr Hgone. destruct rq; cbn [handle snd] in Hgone;
      try contradiction.
    + exfalso. apply Hgone.
      destruct (post_friends_db err now req_body db) as [-> | (x & _ & ->)];
        [ assumption | ].
      cbn [rows]. apply in_or_app. now left.
    + unfold delete_friend, delete_where_id in Hgone.
      destruct err; cbn [snd] in Hgone; [ contradiction | ].
      split; [ reflexivity | ]. left. exists friendId. split; [ reflexivity | ].
      apply id_matches_iff.
      destruct (id_matches friendId r) eqn:Hm; [ reflexivity | ].
      exfalso. apply Hgone.
      destruct (_ =? 0); cbn [snd rows]; apply filter_In;
        (split; [ assumption | now rewrite Hm ]).
    + unfold delete_friends in Hgone.
      destruct err; cbn [snd] in Hgone; [ contradiction | ].
      split; [ reflexivity | now right ].
Qed.

End Properties.

(* ================================================================= *)
(** ** The model at work *)

Section Running.
#[local] Existing Instance sample_coercions.

Example run_create :
  post_friends false noon ana empty =
  (json (JObj [ ("id", JNum 1%float); ("name", JStr "Ana");
                ("location", JStr "Rome"); ("notes", JUndefined);
                ("otherCities", JUndefined);
                ("coords", JObj [ ("lat", JNum 41.5%float);
                                  ("lng", JNum 12.5%float) ]);
                ("displayName", JUndefined);
                ("message", JStr "Friend added successfully") ]),
   mkDb [ mkRow 1 "Ana" "Rome" None None (SqlReal 41.5%float)
                (SqlReal 12.5%float) None noon ] 1).
Proof. reflexivity. Qed.

Example run_sample_trace :
  serve sample_trace empty =
  mkDb [ mkRow 2 "Ana" "Rome" None None (SqlReal 41.5%float)
               (SqlReal 12.5%float) None noon;
         mkRow 3 "Ana" "Rome" None None (SqlReal 41.5%float)
               (SqlReal 12.5%float) None one_pm ] 3.
Proof. reflexivity. Qed.

Example run_list_newest_first :
  map (fun o => field o "id") (items (get_friends false (serve sample_trace empty)))
  = [ JNum 3%float; JNum 2%float ].
Proof. reflexivity. Qed.

Example run_public_list :
  get_friends_public false table_with_secrets =
  json (JArr [ JObj [ ("id", JNum 2%float); ("name", JStr "Bo");
                      ("location", JStr "Oslo");
                      ("coords", JObj [ ("lat", JNum 60%float);
                                        ("lng", JNum 10.5%float) ]);
                      ("displayName", JStr "B.");
                      ("timestamp", JStr one_pm) ];
               JObj [ ("id", JNum 1%float); ("name", JStr "Ana");
                      ("location", JStr "Rome");
                      ("coords", JObj [ ("lat", JNum 41.5%float);
                                        ("lng", JNum 12.5%float) ]);
                      ("displayName", JNull);
                      ("timestamp", JStr noon) ] ]).
Proof. reflexivity. Qed.

Example run_delete_all :
  delete_friends false table_with_secrets
  = (message "Deleted 2 friends", mkDb [] 2).
Proof. reflexivity. Qed.

Example run_delete_unknown :
  fst (delete_friend false "7" table_with_secrets) = error 404 "Friend not found"
  /\ fst (delete_friend false "ana" table_with_secrets) = error 404 "Friend not found".
Proof. split; reflexivity. Qed.

Example run_body_missing :
  post_friends false noon JUndefined one_friend = (something_went_wrong, one_friend).
Proof. reflexivity. Qed.

Lemma well_formed_one_friend : well_formed one_friend.
Proof.
  split.
  - repeat constructor. intros [].
  - repeat constructor. discriminate.
Qed.

Lemma create_validation_witness :
  status (fst (post_friends false noon ana_on_equator empty)) = 400 /\
  snd (post_friends false noon ana_on_equator empty) = empty.
Proof.
  apply (proj2 (proj2 (create_validation false noon ana_on_equator empty eq_refl))).
  left. reflexivity.
Defined.

Lemma public_list_hides_notes_witness :
  get_friends_public false table_with_secrets
  = get_friends_public false table_without_secrets.
Proof.
  apply (proj1 (proj2 public_list_hides_notes)).
  repeat constructor.
Defined.

Lemma ana_all_required_truthy : all_required_truthy ana.
Proof. repeat split. Qed.

Lemma ana_blank_notes_all_required_truthy : all_required_truthy ana_blank_notes.
Proof. repeat split. Qed.

Lemma ana_with_notes_all_required_truthy : all_required_truthy ana_with_notes.
Proof. repeat split. Qed.

Lemma create_then_list_witness :
  listed_as_stored ana
    (fst (post_friends false noon ana empty))
    (get_friends false (snd (post_friends false noon ana empty))).
Proof.
  apply (create_then_list noon ana empty eq_refl ana_all_required_truthy).
Defined.

(** C3, as stated, fails: Ana created with [notes: ""] is listed with
    [notes: null]. *)
Lemma create_then_list_mismatch :
  all_required_truthy ana_blank_notes /\
  status (fst (post_friends false noon ana_blank_notes empty)) = 200 /\
  ~ listed_as_requested ana_blank_notes
      (fst (post_friends false noon ana_blank_notes empty))
      (get_friends false (snd (post_friends false noon ana_blank_notes empty))).
Proof.
  split; [ exact ana_blank_notes_all_required_truthy | ].
  split; [ reflexivity | ].
  intros (rec & Hin & _ & Hfields & _).
  vm_compute in Hin. destruct Hin as [<- | []].
  specialize (Hfields "notes" (or_intror (or_intror (or_introl eq_refl)))).
  vm_compute in Hfields. discriminate.
Qed.



Lemma stats_report_witness :
  field (body (get_stats false
           (snd (post_friends false one_pm ana
              (snd (post_friends false noon ana_with_notes empty))))))
        "totalFriends" = JNum 2%float /\
  field (body (get_stats false
           (snd (post_friends false one_pm ana
              (snd (post_friends false noon ana_with_notes empty))))))
        "friendsWithNotes" = JNum 1%float.
Proof.
  apply (proj2 (proj2 stats_report) noon one_pm ana_with_notes ana 0 "likes museums");
    try reflexivity.
  - exact ana_with_notes_all_required_truthy.
  - exact ana_all_required_truthy.
  - discriminate.
Defined.

Lemma ids_unique_rows_immutable_witness :
  well_formed (serve sample_trace empty).
Proof.
  apply (proj1 (ids_unique_rows_immutable empty sample_trace well_formed_empty)).
Defined.

Lemma falsy_optional_stored_null_witness :
  field (body (fst (post_friends false noon ana_blank_notes empty))) "notes" = JStr "" /\
  exists row,
    In (friend_of_row row)
       (items (get_friends false (snd (post_friends false noon ana_blank_notes empty)))) /\
    field (friend_of_row row) "notes" = JNull.
Proof.
  destruct (falsy_optional_stored_null noon ana_blank_notes empty "notes" eq_refl
              ana_blank_notes_all_required_truthy
              (or_introl eq_refl) eq_refl)
    as (_ & Hecho & row & _ & _ & _ & Hlisted & _ & Hnull).
  split; [ exact Hecho | ].
  exists row. split; assumption.
Defined.

End Running.

(* ================================================================= *)
(** ** Further properties of the routes *)

Section Composition.
Context `{Coercions}.

(** *** Failures *)

Lemma filter_length_le (A : Type) (f : A -> bool) (l : list A) :
  (List.length (filter f l) <= List.length l)%nat.
Proof.
  induction l as [ | x l IH]; simpl; [ lia | ].
  destruct (f x); simpl; lia.
Qed.

Lemma filter_same_length (A : Type) (f : A -> bool) (l : list A) :
  List.length (filter f l) = List.length l -> filter f l = l.
Proof.
  induction l as [ | x l IH]; simpl; [ reflexivity | ].
  pose proof (filter_length_le A f l) as Hle.
  destruct (f x); simpl; intros Hlen.
  - f_equal. apply IH. lia.
  - lia.
Qed.

(** The create route either leaves the table alone or answers 200 and
    appends one row. *)
Lemma post_friends_cases (err : bool) (now : string) (req_body : JSValue) (db : Db) :
  snd (post_friends err now req_body db) = db \/
  (err = false /\ nullish req_body = false /\
   status (fst (post_friends err now req_body db)) = 200 /\
   exists r, id r = next_rowid db /\
             snd (post_friends err now req_body db)
             = mkDb (rows db ++ [r]) (next_rowid db)).
Proof.
  destruct (nullish req_body) eqn:Hb.
  - left. destruct req_body; try discriminate; reflexivity.
  - unfold post_friends. rewrite post_friends_unfold by assumption.
    destruct (_ || _); [ now left | ].
    unfold run_insert.
    destruct (member (field req_body "coords") "lat") as [lat | ];
      [ | now left ].
    destruct (member (field req_body "coords") "lng") as [lng | ];
      [ | now left ].
    cbn [bind_opt]. destruct err; [ now left | ].
    unfold insert.
    destruct (bind_text (field req_body "name")); [ | now left ].
    destruct (bind_text (field req_body "location")); [ | now left ].
    destruct (_ || _); [ now left | ].
    right. do 3 (split; [ reflexivity | ]).
    eexists. split; [ | reflexivity ]. reflexivity.
Qed.

(** X1. Whatever the request, an answer other than 200 means that the
    table is exactly as it was: validation errors, not-found, driver
    errors and uncaught exceptions have no effect on the stored rows. *)
Theorem failure_leaves_table (err : bool) (rq : Request) (db : Db) :
  status (fst (handle err rq db)) <> 200 ->
  snd (handle err rq db) = db.
Proof.
  intros Hst. destruct rq; cbn [handle snd fst] in *; try reflexivity.
  - destruct (post_friends_cases err now req_body db)
      as [Hsame | (_ & _ & H200 & _)]; [ assumption | contradiction ].
  - revert Hst. unfold delete_friend, delete_where_id.
    destruct err; [ reflexivity | ].
    destruct (_ =? 0) eqn:Hch; cbn [fst snd status message json].
    + intros _. apply Z.eqb_eq in Hch.
      rewrite filter_same_length by lia. apply db_eta.
    + intros Hst. now contradiction Hst.
  - revert Hst. unfold delete_friends, delete_all.
    destruct err; [ reflexivity | ].
    cbn [fst status message json]. intros Hst. now contradiction Hst.
Qed.

(** X2. When the driver reports an error the answer is 500, except that
    a create request is still validated first: with a missing required
    field it is answered 400 before any statement is prepared. *)
Theorem driver_error_is_500 (rq : Request) (db : Db) :
  status (fst (handle true rq db)) = 500 \/
  (status (fst (handle true rq db)) = 400 /\
   exists now req_body,
     rq = PostFriends now req_body /\
     nullish req_body = false /\ any_required_falsy req_body).
Proof.
  destruct rq; cbn [handle fst]; try (now left).
  destruct (nullish req_body) eqn:Hb.
  - left. destruct req_body; try discriminate; reflexivity.
  - destruct (falsy (field req_body "name") || falsy (field req_body "location")
              || falsy (field req_body "coords")
              || falsy (field (field req_body "coords") "lat")
              || falsy (field (field req_body "coords") "lng")) eqn:Hany.
    + apply any_required_falsy_iff in Hany. right.
      rewrite post_friends_invalid by assumption.
      split; [ reflexivity | ]. now exists now, req_body.
    + left. rewrite post_friends_failed; [ reflexivity | assumption | ].
      apply all_required_truthy_iff. rewrite any_required_falsy_iff.
      now rewrite Hany.
Qed.

(** X3. The create handler throws exactly when the request body is
    [null] or [undefined]; the answer is then the generic 500 and the
    table is untouched.  A [coords] that is [null] or missing does not
    throw: the short circuit answers 400 before [coords.lat] is read. *)
Theorem create_throws_iff_no_body (err : bool) (now : string)
    (req_body : JSValue) (db : Db) :
  (post_friends_body err now req_body db = None <-> nullish req_body = true) /\
  (nullish req_body = true ->
   post_friends err now req_body db = (something_went_wrong, db)) /\
  (nullish req_body = false -> nullish (field req_body "coords") = true ->
   post_friends err now req_body db =
   (error 400 "Name, location, and coordinates are required", db)).
Proof.
  split; [ | split ].
  - split.
    + destruct (nullish req_body) eqn:Hb; [ reflexivity | ].
      rewrite post_friends_unfold by assumption.
      destruct (_ || _ || falsy (field req_body "coords") || _ || _) eqn:Hany;
        [ discriminate | ].
      assert (Hc : truthy (field req_body "coords") = true).
      { rewrite !orb_false_iff in Hany.
        destruct Hany as [[[_ Hc] _] _]. now apply negb_false_iff in Hc. }
      destruct (run_insert_status err now (field req_body "name")
                  (field req_body "location") (field req_body "notes")
                  (field req_body "otherCities") (field req_body "coords")
                  (field req_body "displayName") db Hc)
        as (res & db' & -> & _).
      discriminate.
    + intros Hb. destruct req_body; try discriminate; reflexivity.
  - intros Hb. destruct req_body; try discriminate; reflexivity.
  - intros Hb Hc. apply post_friends_invalid; [ assumption | ].
    right; right; left. unfold falsy.
    destruct (field req_body "coords"); try discriminate; reflexivity.
Qed.

(** X10. A [coords] that is not an object (an array, a string, a number,
    a boolean) is rejected with 400 whatever it contains, since it has no
    [lat]. *)
Theorem coords_must_be_object (err : bool) (now : string)
    (req_body : JSValue) (db : Db) :
  nullish req_body = false ->
  (forall fields, field req_body "coords" <> JObj fields) ->
  post_friends err now req_body db =
  (error 400 "Name, location, and coordinates are required", db).
Proof.
  intros Hb Hobj. apply post_friends_invalid; [ assumption | ].
  unfold any_required_falsy.
  destruct (field req_body "coords") as [ | | b | f | s | l | fields ] eqn:Hc;
    try (right; right; left; reflexivity);
    try (right; right; right; left; reflexivity).
  exfalso. now apply (Hobj fields).
Qed.

(** *** Ids over the life of the table *)

Lemma serve_seq (trace : list (bool * Request)) (db : Db) :
  well_formed db -> seq db <= seq (serve trace db).
Proof.
  revert db. induction trace as [ | [err rq] rest IH]; intros db Hwf; simpl.
  - lia.
  - destruct (handle_step err rq db Hwf) as (Hwf' & Hseq & _).
    specialize (IH _ Hwf'). lia.
Qed.

(** X4. Ids are never reused.  After any run of requests (deletes and
    clear-all included) the id given to the next created friend is above
    the id of every friend the table held before the run, and a friend
    created now gets a smaller id than any friend created after it. *)
Theorem ids_never_reused (db : Db) (trace : list (bool * Request))
    (now : string) (req_body : JSValue) :
  well_formed db ->
  nullish req_body = false ->
  all_required_truthy req_body ->
  (forall r, In r (rows db) -> id r < next_rowid (serve trace db)) /\
  field (body (fst (post_friends false now req_body (serve trace db)))) "id"
    = JNum (number_of_Z (next_rowid (serve trace db))) /\
  next_rowid db
    < next_rowid (serve trace (snd (post_friends false now req_body db))).
Proof.
  intros Hwf Hb Hall. split; [ | split ].
  - intros r Hr. pose proof (serve_seq trace db Hwf) as Hseq.
    destruct Hwf as [_ Hle]. rewrite Forall_forall in Hle.
    specialize (Hle r Hr).
    destruct (next_rowid_fresh (serve trace db)) as [_ Hnext]. lia.
  - rewrite post_friends_ok by assumption. reflexivity.
  - rewrite post_friends_ok by assumption. cbn [snd].
    assert (Hwf' : well_formed
                     (mkDb (rows db ++ [created_row now req_body db])
                           (next_rowid db)))
      by now apply well_formed_append.
    pose proof (serve_seq trace _ Hwf') as Hseq. cbn [seq] in Hseq.
    destruct (next_rowid_fresh
                (serve trace (mkDb (rows db ++ [created_row now req_body db])
                                   (next_rowid db)))) as [_ Hnext].
    lia.
Qed.

(** *** Create and delete together *)




(** *** The lists and the stats against each other *)

Lemma filter_length_perm (A : Type) (f : A -> bool) (l l' : list A) :
  Permutation l l' -> List.length (filter f l) = List.length (filter f l').
Proof.
  induction 1 as [ | x l l' _ IH | x y l | l l' l'' _ IH1 _ IH2]; simpl.
  - reflexivity.
  - destruct (f x); simpl; congruence.
  - destruct (f x), (f y); reflexivity.
  - congruence.
Qed.

Lemma filter_length_map (A B : Type) (g : A -> B) (p : B -> bool) (l : list A) :
  List.length (filter p (map g l))
  = List.length (filter (fun a => p (g a)) l).
Proof.
  induction l as [ | x l IH]; simpl; [ reflexivity | ].
  destruct (p (g x)); simpl; congruence.
Qed.

Lemma with_text_notes (r : Row) :
  with_text "notes" (friend_of_row r) = not_null_nor_empty (notes r).
Proof. unfold with_text, field. simpl. now destruct (notes r). Qed.

Lemma with_text_otherCities (r : Row) :
  with_text "otherCities" (friend_of_row r) = not_null_nor_empty (otherCities r).
Proof. unfold with_text, field. simpl. now destruct (otherCities r). Qed.

Lemma count_with_listing (db : Db) (k : string) (col : Row -> option string) :
  (forall r, with_text k (friend_of_row r) = not_null_nor_empty (col r)) ->
  Z.of_nat (List.length (filter (with_text k) (items (get_friends false db))))
  = count_with col (rows db).
Proof.
  intros Hk. unfold items, get_friends, json, count_with. cbn [body].
  rewrite filter_length_map. f_equal.
  rewrite (filter_length_perm _ _ _ _ (order_by_desc_perm timestamp (rows db))).
  f_equal. apply filter_ext. exact Hk.
Qed.

(** X7. The stats agree with the privileged list taken on the same
    table: [totalFriends] is the number of listed records,
    [friendsWithNotes] the number of listed records whose [notes] is a
    non-empty string, [friendsWithRecommendations] the same for
    [otherCities]; neither exceeds [totalFriends]. *)
Theorem stats_match_list (db : Db) :
  get_stats false db =
  json (JObj
    [ ("totalFriends",
       JNum (number_of_Z (Z.of_nat
         (List.length (items (get_friends false db))))));
      ("friendsWithNotes",
       JNum (number_of_Z (Z.of_nat
         (List.length (filter (with_text "notes")
                              (items (get_friends false db)))))));
      ("friendsWithRecommendations",
       JNum (number_of_Z (Z.of_nat
         (List.length (filter (with_text "otherCities")
                              (items (get_friends false db))))))) ]) /\
  friendsWithNotes (select_stats db) <= totalFriends (select_stats db) /\
  friendsWithRecommendations (select_stats db) <= totalFriends (select_stats db).
Proof.
  split; [ | split ].
  - rewrite (count_with_listing db "notes" notes with_text_notes).
    rewrite (count_with_listing db "otherCities" otherCities
               with_text_otherCities).
    unfold get_stats. rewrite select_stats_counts.
    cbn [totalFriends friendsWithNotes friendsWithRecommendations].
    unfold items, get_friends, json. cbn [body].
    rewrite length_map. unfold select_all.
    now rewrite (Permutation_length (order_by_desc_perm timestamp (rows db))).
  - rewrite select_stats_counts. cbn [totalFriends friendsWithNotes].
    unfold count_with. apply inj_le. apply filter_length_le.
  - rewrite select_stats_counts.
    cbn [totalFriends friendsWithRecommendations].
    unfold count_with. apply inj_le. apply filter_length_le.
Qed.

(** X8. The public list is the privileged list, record by record and in
    the same order, with the properties [notes] and [otherCities] taken
    out; on a driver error both answer the same 500. *)
Theorem public_is_privileged_without_hidden (err : bool) (db : Db) :
  items (get_friends_public false db)
  = map (without_keys ["notes"; "otherCities"]) (items (get_friends false db)) /\
  status (get_friends_public err db) = status (get_friends err db) /\
  get_friends_public true db = get_friends true db.
Proof.
  split; [ | split ].
  - unfold items, get_friends_public, get_friends, json. cbn [body].
    rewrite select_public_select_all, !map_map.
    apply map_ext. intros r. reflexivity.
  - now destruct err.
  - reflexivity.
Qed.

(** *** Where a new friend shows up *)

Lemma order_by_desc_newest {A : Type} (key : A -> string) (l : list A) (x : A) :
  (forall y, In y l -> ts_geb (key y) (key x) = false) ->
  order_by_desc key (l ++ [x]) = x :: order_by_desc key l.
Proof.
  induction l as [ | y l IH]; intros Hold; simpl.
  - reflexivity.
  - rewrite IH by (intros z Hz; apply Hold; now right).
    simpl. now rewrite (Hold y) by now left.
Qed.

(** X9. When every stored timestamp is strictly older than the time of
    the insertion, both lists after a successful create are the created
    record followed by the lists as they were before. *)
Theorem newest_on_top (now : string) (req_body : JSValue) (db : Db) :
  nullish req_body = false ->
  all_required_truthy req_body ->
  (forall r, In r (rows db) -> ts_geb (timestamp r) now = false) ->
  exists rec pub,
    items (get_friends false (snd (post_friends false now req_body db)))
      = rec :: items (get_friends false db) /\
    items (get_friends_public false (snd (post_friends false now req_body db)))
      = pub :: items (get_friends_public false db) /\
    field rec "id" = field (body (fst (post_friends false now req_body db))) "id" /\
    field pub "id" = field (body (fst (post_friends false now req_body db))) "id" /\
    field rec "timestamp" = JStr now /\
    field pub "timestamp" = JStr now.
Proof.
  intros Hb Hall Hold. rewrite post_friends_ok by assumption. cbn [fst snd].
  exists (friend_of_row (created_row now req_body db)).
  exists (public_friend_of_row (public_columns (created_row now req_body db))).
  assert (Hsel : select_all (mkDb (rows db ++ [created_row now req_body db])
                                  (next_rowid db))
                 = created_row now req_body db :: select_all db).
  { unfold select_all. cbn [rows]. now apply order_by_desc_newest. }
  split; [ | split; [ | repeat split ] ].
  - unfold items, get_friends, json. cbn [body]. now rewrite Hsel.
  - unfold items, get_friends_public, json. cbn [body].
    now rewrite !select_public_select_all, Hsel.
Qed.

(** X11. Whatever the timestamps, a successful create adds exactly one
    record to the privileged list and keeps all the others: the new list
    is a rearrangement of the created record and the old list. *)
Theorem create_grows_list (now : string) (req_body : JSValue) (db : Db) :
  nullish req_body = false ->
  all_required_truthy req_body ->
  exists rec,
    field rec "id" = field (body (fst (post_friends false now req_body db))) "id" /\
    Permutation
      (items (get_friends false (snd (post_friends false now req_body db))))
      (rec :: items (get_friends false db)).
Proof.
  intros Hb Hall. rewrite post_friends_ok by assumption. cbn [fst snd].
  exists (friend_of_row (created_row now req_body db)).
  split; [ reflexivity | ].
  unfold items, get_friends, json. cbn [body].
  change (friend_of_row (created_row now req_body db)
          :: map friend_of_row (select_all db))
    with (map friend_of_row (created_row now req_body db :: select_all db)).
  apply Permutation_map. unfold select_all. cbn [rows].
  rewrite !order_by_desc_perm. 
  rewrite Permutation_app_comm. reflexivity.
Qed.

End Composition.

Section RunningFurther.
#[local] Existing Instance sample_coercions.

Example run_create_then_clear_then_create :
  fst (post_friends false one_pm ana
         (snd (delete_friends false
                 (snd (post_friends false noon ana_with_notes empty)))))
  = created_response ana (mkDb [] 1)
  /\ next_rowid (mkDb [] 1) = 2.
Proof. split; reflexivity. Qed.

Lemma failure_leaves_table_witness :
  snd (handle false (DeleteFriend "7") table_with_secrets) = table_with_secrets.
Proof.
  apply failure_leaves_table.
  intros Hst. vm_compute in Hst. discriminate Hst.
Defined.

Lemma ids_never_reused_witness :
  next_rowid one_friend
  < next_rowid (serve sample_trace (snd (post_friends false noon ana one_friend))).
Proof.
  apply (proj2 (proj2 (ids_never_reused one_friend sample_trace noon ana
                         well_formed_one_friend eq_refl
                         ana_all_required_truthy))).
Defined.


Lemma one_friend_older_than_one_pm (r : Row) :
  In r (rows one_friend) -> ts_geb (timestamp r) one_pm = false.
Proof. intros [<- | []]. reflexivity. Qed.

Lemma newest_on_top_witness :
  exists rec,
    items (get_friends false (snd (post_friends false one_pm ana_with_notes one_friend)))
    = rec :: items (get_friends false one_friend).
Proof.
  destruct (newest_on_top one_pm ana_with_notes one_friend eq_refl
              ana_with_notes_all_required_truthy one_friend_older_than_one_pm)
    as (rec & _ & Hlist & _).
  exists rec. exact Hlist.
Defined.

Lemma coords_array_not_object (fields : list (string * JSValue)) :
  field ana_coords_array "coords" <> JObj fields.
Proof. intros Hc. vm_compute in Hc. discriminate Hc. Qed.

Lemma coords_must_be_object_witness :
  post_friends false noon ana_coords_array empty =
  (error 400 "Name, location, and coordinates are required", empty).
Proof.
  exact (coords_must_be_object false noon ana_coords_array empty eq_refl
           coords_array_not_object).
Defined.

Lemma create_grows_list_witness :
  exists rec,
    Permutation
      (items (get_friends false (snd (post_friends false noon ana_with_notes one_friend))))
      (rec :: items (get_friends false one_friend)).
Proof.
  destruct (create_grows_list noon ana_with_notes one_friend eq_refl
              ana_with_notes_all_required_truthy)
    as (rec & _ & Hperm).
  exists rec. exact Hperm.
Defined.

Example run_to_utf8 :
  to_utf8 unpaired_d800 = replacement_character /\
  to_utf8 ("a" ++ unpaired_d800 ++ "b") = ("a" ++ replacement_character ++ "b")%string /\
  to_utf8 "Ana, Zoë 😀" = "Ana, Zoë 😀" /\
  has_unpaired_surrogate "Ana, Zoë 😀" = false /\
  has_unpaired_surrogate ("a" ++ unpaired_d800 ++ "b") = true.
Proof. repeat split. Qed.

Example run_unpaired_name_listed :
  map (fun o => field o "name")
      (items (get_friends false
                (snd (post_friends false noon ana_unpaired_name empty))))
  = [ JStr replacement_character ].
Proof. reflexivity. Qed.

Example run_privileged_list :
  get_friends false table_with_secrets =
  json (JArr [ JObj [ ("id", JNum 2%float); ("name", JStr "Bo");
                      ("location", JStr "Oslo");
                      ("notes", JNull); ("otherCities", JStr "Bergen");
                      ("coords", JObj [ ("lat", JNum 60%float);
                                        ("lng", JNum 10.5%float) ]);
                      ("displayName", JStr "B.");
                      ("timestamp", JStr one_pm) ];
               JObj [ ("id", JNum 1%float); ("name", JStr "Ana");
                      ("location", JStr "Rome");
                      ("notes", JStr "likes museums");
                      ("otherCities", JStr "Naples");
                      ("coords", JObj [ ("lat", JNum 41.5%float);
                                        ("lng", JNum 12.5%float) ]);
                      ("displayName", JNull);
                      ("timestamp", JStr noon) ] ]).
Proof. reflexivity. Qed.

Example run_wire :
  wire (JObj [ ("lat", JNum infinity); ("lng", JNum (-0)%float);
               ("notes", JUndefined); ("tags", JArr [ JUndefined; JStr "x" ]) ])
  = JObj [ ("lat", JNull); ("lng", JNum 0%float);
           ("tags", JArr [ JNull; JStr "x" ]) ].
Proof. reflexivity. Qed.

Lemma delete_all_count_witness :
  delete_friends false table_with_secrets =
  (mkResponse 200 (JObj [("message", JStr "Deleted 2 friends")]), mkDb [] 2).
Proof.
  apply (proj1 (proj2 (delete_all_count empty))).
Defined.

End RunningFurther.
